(** * crop_assets.py: cropping transparent borders from PNG assets

    A shallow embedding of [scripts/crop_assets.py].  The script opens each
    of a fixed list of PNG files, asks the imaging library for the bounding
    box of the non-transparent pixels, enlarges that box by a padding,
    clamps it to the image, crops and saves the file in place.

    Python integers are unbounded, so every coordinate is a [Z].  The
    imaging library (PIL) is an external collaborator: it enters the model
    as an interface, [ImageLib].  The file system, the standard output and
    the log of collaborator calls are threaded through a small
    state-and-exception monad, [Py]. *)

From Stdlib Require Import ZArith Lia Ascii String.
From stdpp Require Import base option list strings gmap pretty.

Local Open Scope string_scope.
Local Open Scope list_scope.
Local Open Scope Z_scope.

(** ** Python builtins on integers *)

(** [max(a, b)]: the builtin keeps the first argument and replaces it only
    by a strictly greater later one. *)
Definition py_max (a b : Z) : Z := if b >? a then b else a.

(** [min(a, b)]: the first argument is kept unless a later one is strictly
    smaller. *)
Definition py_min (a b : Z) : Z := if b <? a then b else a.

(** ** The rectangle computation *)

(** A box is the 4-tuple [(left, top, right, bottom)] the library uses for
    bounding boxes and crop rectangles. *)
Definition box : Type := Z * Z * Z * Z.

(** Lines 36 to 39 of [crop_transparent]: the bounding box [bbox], enlarged
    by [padding] on each side and kept within an image of size
    [orig_w] x [orig_h]. *)
Definition padded_box (orig_w orig_h : Z) (bbox : box) (padding : Z) : box :=
  let '(bbox0, bbox1, bbox2, bbox3) := bbox in
  let left := py_max 0 (bbox0 - padding) in
  let top := py_max 0 (bbox1 - padding) in
  let right := py_min orig_w (bbox2 + padding) in
  let bottom := py_min orig_h (bbox3 + padding) in
  (left, top, right, bottom).

(** The four fields of a box. *)
Definition box_left (b : box) : Z := b.1.1.1.
Definition box_top (b : box) : Z := b.1.1.2.
Definition box_right (b : box) : Z := b.1.2.
Definition box_bottom (b : box) : Z := b.2.

(** ** Paths ([os.path], POSIX flavour) *)

Definition is_sep (c : ascii) : bool := Ascii.eqb c "/"%char.

Definition startswith_sep (s : string) : bool :=
  match s with
  | String c _ => is_sep c
  | EmptyString => false
  end.

Fixpoint endswith_sep (s : string) : bool :=
  match s with
  | EmptyString => false
  | String c EmptyString => is_sep c
  | String _ s' => endswith_sep s'
  end.

(** [os.path.join(a, b)]: an absolute [b] replaces [a]; otherwise [b] is
    appended, after a separator unless [a] is empty or already ends in one. *)
Definition os_path_join (a b : string) : string :=
  if startswith_sep b then b
  else if (String.length a =? 0)%nat || endswith_sep a then a +:+ b
  else a +:+ "/" +:+ b.

(** The part of [s] after its last separator, [acc] being what has been
    read since the previous one. *)
Fixpoint after_last_sep (acc s : string) : string :=
  match s with
  | EmptyString => acc
  | String c s' =>
      if is_sep c then after_last_sep "" s'
      else after_last_sep (acc +:+ String c "") s'
  end.

(** [os.path.basename(p)]. *)
Definition os_path_basename (p : string) : string := after_last_sep "" p.

(** Whether [s] contains a separator. *)
Fixpoint has_sep (s : string) : bool :=
  match s with
  | EmptyString => false
  | String c s' => is_sep c || has_sep s'
  end.

(** [str(n)] for an integer, as an f-string formats it. *)
Definition py_str (n : Z) : string := pretty n.

(** ** The imaging library and the world *)

(** What the script uses of PIL.  A collaborator that can raise returns an
    [option], [None] standing for the exception.
    - [img_open] is [Image.open(..).convert("RGBA")] on the contents of a
      file;
    - [img_size] is the [size] attribute, [(width, height)];
    - [img_getbbox] is [getbbox()], [None] when the image is empty;
    - [img_crop] is [crop(box)];
    - [img_save] encodes an image for the path it is saved at. *)
Class ImageLib := {
  file : Type;
  image : Type;
  img_open : file -> option image;
  img_size : image -> Z * Z;
  img_getbbox : image -> option box;
  img_crop : image -> box -> option image;
  img_save : image -> string -> option file
}.

(** Exceptions the script can let escape. *)
Inductive exn : Type :=
  | FileNotFoundError
  | UnidentifiedImageError
  | ValueError
  | OSError.

(** Calls to the collaborators that act on files or build images, in the
    order they are made. *)
Inductive call : Type :=
  | COpen (path : string)
  | CCrop (rect : box)
  | CSave (path : string).

(** The files on disk, the lines printed so far and the calls made so
    far. *)
Record World `{ImageLib} : Type := mkWorld {
  fs : gmap string file;
  stdout : list string;
  calls : list call
}.

Inductive outcome (A : Type) : Type :=
  | Returned (a : A)
  | Raised (e : exn).
Arguments Returned {A} a.
Arguments Raised {A} e.

Section Script.
Context `{ImageLib}.

(** A statement or expression of the script: it runs in a world and
    either returns a value or raises, leaving a new world. *)
Definition Py (A : Type) : Type := World -> outcome A * World.

Definition ret {A} (a : A) : Py A := fun w => (Returned a, w).

Definition raise {A} (e : exn) : Py A := fun w => (Raised e, w).

Definition bind {A B} (m : Py A) (k : A -> Py B) : Py B :=
  fun w =>
    match m w with
    | (Returned a, w') => k a w'
    | (Raised e, w') => (Raised e, w')
    end.

Definition emit (line : string) (w : World) : World :=
  mkWorld _ (fs w) (stdout w ++ [line]) (calls w).

Definition log (c : call) (w : World) : World :=
  mkWorld _ (fs w) (stdout w) (calls w ++ [c]).

Definition write (path : string) (f : file) (w : World) : World :=
  mkWorld _ (<[path := f]> (fs w)) (stdout w) (calls w).

(** [print(line)]. *)
Definition print (line : string) : Py unit :=
  fun w => (Returned tt, emit line w).

(** [os.path.exists(path)]. *)
Definition os_path_exists (path : string) : Py bool :=
  fun w => (Returned (bool_decide (is_Some (fs w !! path))), w).

(** [Image.open(path).convert("RGBA")]. *)
Definition Image_open (path : string) : Py image :=
  fun w =>
    let w' := log (COpen path) w in
    match fs w !! path with
    | None => (Raised FileNotFoundError, w')
    | Some f =>
        match img_open f with
        | None => (Raised UnidentifiedImageError, w')
        | Some img => (Returned img, w')
        end
    end.

(** [img.crop(rect)]. *)
Definition Image_crop (img : image) (rect : box) : Py image :=
  fun w =>
    let w' := log (CCrop rect) w in
    match img_crop img rect with
    | None => (Raised ValueError, w')
    | Some cropped => (Returned cropped, w')
    end.

(** [img.save(path)]: the file at [path] is created or replaced. *)
Definition Image_save (img : image) (path : string) : Py unit :=
  fun w =>
    let w' := log (CSave path) w in
    match img_save img path with
    | None => (Raised OSError, w')
    | Some f => (Returned tt, write path f w')
    end.
End Script.

Declare Scope py_scope.
Delimit Scope py_scope with py.
Notation "x <- m ;; k" := (bind m (fun x => k))
  (at level 100, m at next level, right associativity) : py_scope.
Notation "m ;;; k" := (bind m (fun _ => k))
  (at level 100, right associativity) : py_scope.

(** ** The script *)

Section Program.
Context `{ImageLib}.
Local Open Scope py_scope.

(** [crop_transparent(input_path, output_path=None, padding=0)];
    [output_path] is [None] when the caller leaves it out. *)
Definition crop_transparent
    (input_path : string) (output_path : option string) (padding : Z)
    : Py unit :=
  let output_path :=
    match output_path with
    | None => input_path
    | Some p => p
    end in
  img <- Image_open input_path ;;
  let bbox := img_getbbox img in
  match bbox with
  | None =>
      print ("  " +:+ input_path +:+ ": Image is fully transparent, skipping")
  | Some bbox =>
      let '(orig_w, orig_h) := img_size img in
      let rect := padded_box orig_w orig_h bbox padding in
      cropped <- Image_crop img rect ;;
      Image_save cropped output_path ;;;
      let '(new_w, new_h) := img_size cropped in
      print ("  " +:+ os_path_basename input_path +:+ ": "
             +:+ py_str orig_w +:+ "x" +:+ py_str orig_h +:+ " -> "
             +:+ py_str new_w +:+ "x" +:+ py_str new_h)
  end.

Definition assets_dir : string :=
  "/Users/cayden0207/Desktop/Cursor/Eliza town/assets/ui/stardew".

Definition files_to_crop : list string :=
  ["checked.png"; "uncheck.png"; "tab_normal.png"; "tab_active.png"].

(** The body of the loop of [main], for one [filename]. *)
Definition crop_file (filename : string) : Py unit :=
  let filepath := os_path_join assets_dir filename in
  found <- os_path_exists filepath ;;
  if found then crop_transparent filepath None 2
  else print ("  " +:+ filename +:+ ": File not found, skipping").

(** [for x in xs: body(x)]: an exception in one iteration ends the
    loop. *)
Fixpoint for_each {A} (xs : list A) (body : A -> Py unit) : Py unit :=
  match xs with
  | [] => ret tt
  | x :: xs' => body x ;;; for_each xs' body
  end.

Definition main : Py unit :=
  print "Cropping transparent areas from PNG assets..." ;;;
  print "" ;;;
  for_each files_to_crop crop_file ;;;
  print "" ;;;
  print "Done! Assets have been cropped.".
End Program.

(** ** A reference imaging library *)

Module Grid.
(** An image as its rows of alpha values, [0] being fully transparent. *)
Definition grid : Type := list (list Z).

Definition alpha_at (g : grid) (x y : Z) : Z :=
  if (x <? 0) || (y <? 0) then 0
  else nth (Z.to_nat x) (nth (Z.to_nat y) g []) 0.

Definition size (g : grid) : Z * Z :=
  (Z.of_nat (length (nth 0 g [])), Z.of_nat (length g)).

(** The pixels that are not fully transparent, as [(x, y)]. *)
Definition opaque (g : grid) : list (Z * Z) :=
  let '(w, h) := size g in
  y ← seqZ 0 h; x ← seqZ 0 w;
  if alpha_at g x y =? 0 then [] else [(x, y)].

Definition getbbox (g : grid) : option box :=
  match opaque g with
  | [] => None
  | (x0, y0) :: ps =>
      let xs := x0 :: ps.*1 in
      let ys := y0 :: ps.*2 in
      Some (foldr Z.min x0 xs, foldr Z.min y0 ys,
            foldr Z.max x0 xs + 1, foldr Z.max y0 ys + 1)
  end.

Definition crop (g : grid) (rect : box) : option grid :=
  let '(x0, y0, x1, y1) := rect in
  if (x1 <? x0) || (y1 <? y0) then None
  else Some ((fun y => (fun x => alpha_at g x y) <$> seqZ x0 (x1 - x0))
             <$> seqZ y0 (y1 - y0)).

(** Modelled from the spec: the four collaborators of its section 6,
    which belong to the external imaging library.  The decoder returns
    the pixel grid with its width and height; the bounding-box finder
    returns the minimal rectangle enclosing the pixels of non-zero alpha,
    or none when all are transparent; the cropper restricts the grid to a
    rectangle; the writer persists the grid. *)
#[global] Instance lib : ImageLib := {|
  file := grid;
  image := grid;
  img_open := Some;
  img_size := size;
  img_getbbox := getbbox;
  img_crop := crop;
  img_save := fun g _ => Some g
|}.

(** A 10 x 8 image whose content occupies columns 4 to 5 and rows 3
    to 4. *)
Definition sample : grid :=
  [ [0; 0; 0; 0;   0;   0; 0; 0; 0; 0];
    [0; 0; 0; 0;   0;   0; 0; 0; 0; 0];
    [0; 0; 0; 0;   0;   0; 0; 0; 0; 0];
    [0; 0; 0; 0; 255; 255; 0; 0; 0; 0];
    [0; 0; 0; 0; 255; 128; 0; 0; 0; 0];
    [0; 0; 0; 0;   0;   0; 0; 0; 0; 0];
    [0; 0; 0; 0;   0;   0; 0; 0; 0; 0];
    [0; 0; 0; 0;   0;   0; 0; 0; 0; 0] ].

(** A 3 x 2 image with no visible pixel. *)
Definition blank : grid := [ [0; 0; 0]; [0; 0; 0] ].

Definition world (files : list (string * grid)) : World :=
  mkWorld lib (list_to_map files) [] [].

(** A disk holding only a blank image. *)
Definition blank_only : World := world [("blank.png", blank)].

(** The assets directory with uncheck.png alone. *)
Definition uncheck_only : World :=
  world [(os_path_join assets_dir "uncheck.png", sample)].

(** The assets directory with checked.png, which has content, and
    tab_normal.png, which is blank. *)
Definition two_assets : World :=
  world [(os_path_join assets_dir "checked.png", sample);
         (os_path_join assets_dir "tab_normal.png", blank)].

(** The sample cropped to its content with 2 pixels around: 6 x 6. *)
Definition cropped_sample : grid :=
  [ [0; 0;   0;   0; 0; 0];
    [0; 0;   0;   0; 0; 0];
    [0; 0; 255; 255; 0; 0];
    [0; 0; 255; 128; 0; 0];
    [0; 0;   0;   0; 0; 0];
    [0; 0;   0;   0; 0; 0] ].

(** A disk holding only the sample image. *)
Definition sample_only : World := world [("sample.png", sample)].

(** Modelled from the spec: the same collaborators over files that need
    not be images.  Its section 7 lets the decoder fail on a corrupt file;
    here a file is either the encoding of a grid or, as [None], bytes that
    decode to no image. *)
Definition lib_with_corrupt : ImageLib := {|
  file := option grid;
  image := grid;
  img_open := fun f => f;
  img_size := size;
  img_getbbox := getbbox;
  img_crop := crop;
  img_save := fun g _ => Some (Some g)
|}.

(** The assets directory with a corrupt checked.png and a sound
    uncheck.png. *)
Definition corrupt_checked : @World lib_with_corrupt :=
  mkWorld lib_with_corrupt
    (list_to_map [(os_path_join assets_dir "checked.png", None);
                  (os_path_join assets_dir "uncheck.png", Some sample)])
    [] [].
End Grid.


(** ** Observations on a run *)

Section Observations.
Context `{ImageLib}.

(** The paths opened, in order, among the calls [cs]. *)
Definition opened (cs : list call) : list string :=
  omap (fun c => match c with COpen p => Some p | _ => None end) cs.

(** What cropping in place with a given padding does to the file at
    [path]: a missing file stays missing; a file whose image has no
    bounding box keeps its contents; any other file is replaced by the
    image cropped to the padded bounding box and saved at [path]. *)
Definition cropped_in_place
    (padding : Z) (path : string) (old new : option file) : Prop :=
  match old with
  | None => new = None
  | Some f =>
      exists img, img_open f = Some img /\
        match img_getbbox img with
        | None => new = Some f
        | Some bbox =>
            exists cropped f',
              img_crop img
                (padded_box (img_size img).1 (img_size img).2 bbox padding)
              = Some cropped /\
              img_save cropped path = Some f' /\
              new = Some f'
        end
  end.

(** The outcomes of a run that opens only files that exist: it returns, or
    one of the collaborators fails to decode, to crop or to save. *)
Definition returned_or_library_error (o : outcome unit) : Prop :=
  o = Returned tt \/ o = Raised UnidentifiedImageError \/
  o = Raised ValueError \/ o = Raised OSError.

(** Running [m] only adds lines to the output: what was printed before
    stays, in place. *)
Definition stdout_grows {A} (m : Py A) : Prop :=
  forall w, exists more, stdout (m w).2 = stdout w ++ more.

(** The two worlds hold files at the same paths. *)
Definition same_paths (w w' : World) : Prop :=
  forall q, is_Some (fs w' !! q) <-> is_Some (fs w !! q).
End Observations.

(** * Properties of the rectangle computation *)

Lemma py_max_spec a b : py_max a b = Z.max a b.
Proof. unfold py_max. destruct (Z.gtb_spec b a); lia. Qed.

Lemma py_min_spec a b : py_min a b = Z.min a b.
Proof. unfold py_min. destruct (Z.ltb_spec b a); lia. Qed.

(** The computation in closed form, for any integers whatsoever. *)
Lemma padded_box_eq W H bx0 by0 bx1 by1 P :
  padded_box W H (bx0, by0, bx1, by1) P =
  (Z.max 0 (bx0 - P), Z.max 0 (by0 - P), Z.min W (bx1 + P), Z.min H (by1 + P)).
Proof. unfold padded_box. by rewrite !py_max_spec, !py_min_spec. Qed.

(** Turns a goal about [padded_box] into linear arithmetic over [Z.max] and
    [Z.min]. *)
Ltac box_arith :=
  rewrite ?padded_box_eq; cbn [box_left box_top box_right box_bottom fst snd];
  repeat split;
  repeat match goal with |- (_, _) = (_, _) => f_equal end; lia.

(** C1: for every width W, height H, bounding box (bx0, by0, bx1, by1) and
    padding P >= 0, the rectangle computed is left = max(0, bx0 - P),
    top = max(0, by0 - P), right = min(W, bx1 + P),
    bottom = min(H, by1 + P). *)
Theorem padded_box_formulas W H bx0 by0 bx1 by1 P :
  0 <= P ->
  padded_box W H (bx0, by0, bx1, by1) P =
  (Z.max 0 (bx0 - P), Z.max 0 (by0 - P), Z.min W (bx1 + P), Z.min H (by1 + P)).
Proof. intros _. apply padded_box_eq. Qed.

Lemma padded_box_formulas_witness :
  0 <= 3 /\
  padded_box 20 10 (1, 4, 18, 9) 3 =
  (Z.max 0 (1 - 3), Z.max 0 (4 - 3), Z.min 20 (18 + 3), Z.min 10 (9 + 3)).
Proof. split; [lia | apply padded_box_formulas; lia]. Defined.

(** C2: for a bounding box with 0 <= bx0 <= bx1 <= W and
    0 <= by0 <= by1 <= H and a padding P >= 0, the rectangle (l, t, r, b)
    lies within the image, keeps its sides ordered and contains the
    bounding box: 0 <= l <= r <= W, 0 <= t <= b <= H, l <= bx0, t <= by0,
    r >= bx1 and b >= by1. *)
Theorem padded_box_bounds W H bx0 by0 bx1 by1 P :
  0 <= bx0 <= bx1 -> bx1 <= W -> 0 <= by0 <= by1 -> by1 <= H -> 0 <= P ->
  let '(l, t, r, b) := padded_box W H (bx0, by0, bx1, by1) P in
  (0 <= l <= r /\ r <= W) /\ (0 <= t <= b /\ b <= H) /\
  l <= bx0 /\ t <= by0 /\ r >= bx1 /\ b >= by1.
Proof. intros. box_arith. Qed.

Lemma padded_box_bounds_witness :
  (0 <= 1 <= 99 /\ 99 <= 100 /\ 0 <= 10 <= 40 /\ 40 <= 50 /\ 0 <= 2) /\
  let '(l, t, r, b) := padded_box 100 50 (1, 10, 99, 40) 2 in
  (0 <= l <= r /\ r <= 100) /\ (0 <= t <= b /\ b <= 50) /\
  l <= 1 /\ t <= 10 /\ r >= 99 /\ b >= 40.
Proof. split; [lia | apply (padded_box_bounds 100 50 1 10 99 40 2); lia]. Defined.

(** Whenever no side of the bounding box is further than the padding from
    the edge of the image, the rectangle is the whole image. *)
Lemma padded_box_covers W H bx0 by0 bx1 by1 P :
  bx0 <= P -> by0 <= P -> W <= bx1 + P -> H <= by1 + P ->
  padded_box W H (bx0, by0, bx1, by1) P = (0, 0, W, H).
Proof. intros. box_arith. Qed.

(** X4: the rectangle computation is idempotent.  After a first crop to
    (l, t, r, b) the image measures (r - l) x (b - t) and its content sits
    at the old bounding box moved by (l, t); computing the rectangle again
    with the same padding selects that whole image. *)
Lemma padded_box_rerun W H bx0 by0 bx1 by1 P :
  0 <= bx0 <= bx1 -> bx1 <= W -> 0 <= by0 <= by1 -> by1 <= H -> 0 <= P ->
  let '(l, t, r, b) := padded_box W H (bx0, by0, bx1, by1) P in
  padded_box (r - l) (b - t) (bx0 - l, by0 - t, bx1 - l, by1 - t) P =
  (0, 0, r - l, b - t).
Proof. intros. rewrite padded_box_eq. apply padded_box_covers; lia. Qed.




(** C6: with padding 0 and a bounding box with 0 <= bx0 <= bx1 <= W and
    0 <= by0 <= by1 <= H, the rectangle is the bounding box itself. *)
Theorem padded_box_no_padding W H bx0 by0 bx1 by1 :
  0 <= bx0 <= bx1 -> bx1 <= W -> 0 <= by0 <= by1 -> by1 <= H ->
  padded_box W H (bx0, by0, bx1, by1) 0 = (bx0, by0, bx1, by1).
Proof. intros. box_arith. Qed.

Lemma padded_box_no_padding_witness :
  (0 <= 3 <= 7 /\ 7 <= 10 /\ 0 <= 0 <= 8 /\ 8 <= 8) /\
  padded_box 10 8 (3, 0, 7, 8) 0 = (3, 0, 7, 8).
Proof. split; [lia | apply padded_box_no_padding; lia]. Defined.

(** C7: a bounding box touching the left edge (bx0 = 0) with a padding
    P > 0 gives left = 0; and, the subtraction being clamped, no input at
    all gives a negative left offset. *)
Theorem padded_box_left_clamped W H by0 bx1 by1 P :
  0 < P ->
  box_left (padded_box W H (0, by0, bx1, by1) P) = 0 /\
  (forall W' H' bx0' by0' bx1' by1' P',
     0 <= box_left (padded_box W' H' (bx0', by0', bx1', by1') P')).
Proof. intros. split; [| intros]; box_arith. Qed.

Lemma padded_box_left_clamped_witness :
  0 < 5 /\ box_left (padded_box 64 64 (0, 12, 30, 40) 5) = 0.
Proof.
  split; [lia | apply (padded_box_left_clamped 64 64 12 30 40 5); lia].
Defined.

(** C8: for W = 100, H = 50, bounding box (10, 10, 90, 40) and P = 2 the
    rectangle is (8, 8, 92, 42); for the bounding box (0, 0, 100, 50) it is
    (0, 0, 100, 50). *)
Theorem padded_box_scenarios :
  padded_box 100 50 (10, 10, 90, 40) 2 = (8, 8, 92, 42) /\
  padded_box 100 50 (0, 0, 100, 50) 2 = (0, 0, 100, 50).
Proof. split; reflexivity. Qed.

(** C9: the rectangle grows with the padding: for a bounding box with
    0 <= bx0 <= bx1 <= W and 0 <= by0 <= by1 <= H and paddings
    0 <= P1 <= P2, the rectangle for P1 lies within the rectangle for P2
    (left and top do not increase, right and bottom do not decrease). *)
Theorem padded_box_monotone W H bx0 by0 bx1 by1 P1 P2 :
  0 <= bx0 <= bx1 -> bx1 <= W -> 0 <= by0 <= by1 -> by1 <= H ->
  0 <= P1 <= P2 ->
  let '(l1, t1, r1, b1) := padded_box W H (bx0, by0, bx1, by1) P1 in
  let '(l2, t2, r2, b2) := padded_box W H (bx0, by0, bx1, by1) P2 in
  l2 <= l1 /\ t2 <= t1 /\ r1 <= r2 /\ b1 <= b2.
Proof. intros. box_arith. Qed.

Lemma padded_box_monotone_witness :
  (0 <= 4 <= 6 /\ 6 <= 10 /\ 0 <= 3 <= 5 /\ 5 <= 8 /\ 0 <= 2 <= 5) /\
  let '(l1, t1, r1, b1) := padded_box 10 8 (4, 3, 6, 5) 2 in
  let '(l2, t2, r2, b2) := padded_box 10 8 (4, 3, 6, 5) 5 in
  l2 <= l1 /\ t2 <= t1 /\ r1 <= r2 /\ b1 <= b2.
Proof.
  split; [lia | apply (padded_box_monotone 10 8 4 3 6 5 2 5); lia].
Defined.

(** * Properties of the script *)

Section ProgramProperties.
Context `{ImageLib}.
Local Open Scope py_scope.

Lemma bind_returned {A B} (m : Py A) (k : A -> Py B) w b w' :
  bind m k w = (Returned b, w') ->
  exists a w1, m w = (Returned a, w1) /\ k a w1 = (Returned b, w').
Proof.
  unfold bind. destruct (m w) as [[a|e] w1]; [eauto | discriminate].
Qed.

Lemma bind_run {A B} (m : Py A) (k : A -> Py B) w a w1 :
  m w = (Returned a, w1) -> bind m k w = k a w1.
Proof. unfold bind. by intros ->. Qed.

Lemma bind_same {A B} (m m' : Py A) (k : A -> Py B) w w' :
  m w = m' w' -> bind m k w = bind m' k w'.
Proof. unfold bind. by intros ->. Qed.

(** X6: when every collaborator succeeds on an image that has a bounding
    box, [crop_transparent] returns: it has opened the input, cropped to
    the padded box, saved the result at the output path (the input path
    when none is given) and printed the old and new dimensions. *)
Lemma crop_transparent_crops
    input_path output_path padding (w : World)
    f img bbox orig_w orig_h cropped f' new_w new_h :
  let out := default input_path output_path in
  let rect := padded_box orig_w orig_h bbox padding in
  fs w !! input_path = Some f ->
  img_open f = Some img ->
  img_getbbox img = Some bbox ->
  img_size img = (orig_w, orig_h) ->
  img_crop img rect = Some cropped ->
  img_save cropped out = Some f' ->
  img_size cropped = (new_w, new_h) ->
  exists w',
    crop_transparent input_path output_path padding w = (Returned tt, w') /\
    fs w' = <[out := f']> (fs w) /\
    calls w' = calls w ++ [COpen input_path; CCrop rect; CSave out] /\
    stdout w' = stdout w ++
      ["  " +:+ os_path_basename input_path +:+ ": "
       +:+ py_str orig_w +:+ "x" +:+ py_str orig_h +:+ " -> "
       +:+ py_str new_w +:+ "x" +:+ py_str new_h].
Proof.
  intros out rect Hf Himg Hbox Hsize Hcrop Hsave Hnew. eexists. split.
  - unfold crop_transparent, bind, Image_open, Image_crop, Image_save.
    rewrite Hf, Himg, Hbox, Hsize. fold rect. rewrite Hcrop.
    replace (match output_path with Some p => p | None => input_path end)
      with out by (by destruct output_path).
    rewrite Hsave, Hnew. reflexivity.
  - cbn. by rewrite <- !app_assoc.
Qed.

(** A loop over [xs ++ ys] is the loop over [xs] followed by the loop
    over [ys]. *)
Lemma for_each_app {A} (xs ys : list A) (body : A -> Py unit) w :
  for_each (xs ++ ys) body w = (for_each xs body ;;; for_each ys body) w.
Proof.
  revert w. induction xs as [|x xs IH]; intros w; [reflexivity |].
  cbn [for_each app]. unfold bind.
  destruct (body x w) as [[[]|e] w1]; [| reflexivity].
  rewrite IH. reflexivity.
Qed.

(** C3: when the image at [input_path] opens and the bounding-box finder
    returns none for it, [crop_transparent] returns normally; the files
    are unchanged, the only collaborator call is the opening of the image
    (no crop, no save), and the one line printed is the skip message. *)
Theorem crop_transparent_fully_transparent
    input_path output_path padding (w : World) f img :
  fs w !! input_path = Some f ->
  img_open f = Some img ->
  img_getbbox img = None ->
  exists w',
    crop_transparent input_path output_path padding w = (Returned tt, w') /\
    fs w' = fs w /\
    calls w' = calls w ++ [COpen input_path] /\
    stdout w' = stdout w ++
      ["  " +:+ input_path +:+ ": Image is fully transparent, skipping"].
Proof.
  intros Hf Himg Hbox. eexists. split.
  - unfold crop_transparent, bind, Image_open.
    rewrite Hf, Himg, Hbox. reflexivity.
  - done.
Qed.

(** A call of [crop_transparent] without an output path that returns has
    opened [input_path] and cropped that file in place. *)
Lemma crop_transparent_returned input_path padding (w w' : World) :
  crop_transparent input_path None padding w = (Returned tt, w') ->
  is_Some (fs w !! input_path) /\
  cropped_in_place padding input_path
    (fs w !! input_path) (fs w' !! input_path) /\
  (forall q, q <> input_path -> fs w' !! q = fs w !! q) /\
  opened (calls w') = opened (calls w) ++ [input_path].
Proof.
  unfold crop_transparent, bind, Image_open, Image_crop, Image_save, print.
  destruct (fs w !! input_path) as [f|] eqn:Hf; [| discriminate].
  destruct (img_open f) as [img|] eqn:Himg; [| discriminate].
  cbn [cropped_in_place].
  destruct (img_getbbox img) as [bbox|] eqn:Hbox.
  - destruct (img_size img) as [orig_w orig_h] eqn:Hsize.
    destruct (img_crop img _) as [cropped|] eqn:Hcrop; [| discriminate].
    destruct (img_save cropped input_path) as [f'|] eqn:Hsave;
      [| discriminate].
    destruct (img_size cropped) as [new_w new_h].
    intros [= <-]. cbn. split; [eauto |]. split; [| split].
    + exists img. rewrite Hbox, Hsize. cbn. split; [done |].
      exists cropped, f'. rewrite lookup_insert_eq. auto.
    + intros q Hq. by rewrite lookup_insert_ne.
    + unfold opened. rewrite !omap_app. cbn. by rewrite !app_nil_r.
  - intros [= <-]. cbn. split; [eauto |]. split; [| split].
    + exists img. by rewrite Hbox.
    + done.
    + unfold opened. by rewrite omap_app.
Qed.

(** One iteration of the loop of [main] that returns has cropped its file
    in place with padding 2, or left a missing file missing. *)
Lemma crop_file_returned filename (w w' : World) :
  crop_file filename w = (Returned tt, w') ->
  let p := os_path_join assets_dir filename in
  cropped_in_place 2 p (fs w !! p) (fs w' !! p) /\
  (forall q, q <> p -> fs w' !! q = fs w !! q) /\
  opened (calls w') =
    opened (calls w) ++ filter (fun q => is_Some (fs w !! q)) [p].
Proof.
  intros Hrun p. unfold crop_file, bind, os_path_exists in Hrun.
  fold p in Hrun. case_bool_decide as Hp.
  - apply crop_transparent_returned in Hrun as (_ & Hcrop & Hframe & Hopen).
    by rewrite filter_cons_True, filter_nil.
  - injection Hrun as <-.
    rewrite filter_cons_False, filter_nil, app_nil_r by done.
    apply eq_None_not_Some in Hp. cbn. by rewrite Hp.
Qed.

Lemma filter_ext_in {A} (P Q : A -> Prop)
    `{!forall x, Decision (P x), !forall x, Decision (Q x)} (l : list A) :
  (forall x, x ∈ l -> P x <-> Q x) -> filter P l = filter Q l.
Proof.
  induction l as [|a l IH]; intros HPQ; [done |].
  rewrite !filter_cons. rewrite IH by (intros; apply HPQ; by right).
  destruct (decide (P a)) as [Ha|Ha], (decide (Q a)) as [Ha'|Ha'];
    try done; exfalso; apply (HPQ a) in Ha || apply (HPQ a) in Ha';
    done || by left.
Qed.

(** The loop of [main] over any list of names whose paths are pairwise
    distinct: each named file is cropped in place, every other file is
    left alone, and the files are opened in the order of the list. *)
Lemma for_each_crop_file_returned names (w w' : World) :
  NoDup (os_path_join assets_dir <$> names) ->
  for_each names crop_file w = (Returned tt, w') ->
  (forall filename, filename ∈ names ->
     let p := os_path_join assets_dir filename in
     cropped_in_place 2 p (fs w !! p) (fs w' !! p)) /\
  (forall q, q ∉ os_path_join assets_dir <$> names ->
     fs w' !! q = fs w !! q) /\
  opened (calls w') =
    opened (calls w) ++
    filter (fun q => is_Some (fs w !! q)) (os_path_join assets_dir <$> names).
Proof.
  revert w. induction names as [|n names IH]; intros w Hnodup Hrun.
  { injection Hrun as <-. cbn. rewrite app_nil_r.
    split; [| done]. intros ? Hin. by apply elem_of_nil in Hin. }
  rewrite fmap_cons in Hnodup. apply NoDup_cons in Hnodup as [Hn Hnodup].
  cbn [for_each] in Hrun.
  apply bind_returned in Hrun as ([] & w1 & Hstep & Hrest).
  apply crop_file_returned in Hstep as (Hcrop1 & Hframe1 & Hopen1).
  apply IH in Hrest as (Hcrop & Hframe & Hopen); [| done].
  assert (Hsame : forall q, q ∈ os_path_join assets_dir <$> names ->
                            fs w1 !! q = fs w !! q).
  { intros q Hq. apply Hframe1. by intros ->. }
  split; [| split].
  - intros filename Hin p. apply elem_of_cons in Hin as [-> | Hin].
    + subst p. by rewrite Hframe.
    + specialize (Hcrop filename Hin). cbn in Hcrop.
      rewrite Hsame in Hcrop; [done |].
      apply list_elem_of_fmap. eauto.
  - intros q Hq. rewrite fmap_cons in Hq.
    apply not_elem_of_cons in Hq as [Hq1 Hq2].
    by rewrite Hframe, Hframe1.
  - rewrite Hopen, Hopen1, fmap_cons, <- app_assoc. f_equal.
    rewrite (filter_cons _ _ (_ <$> names)), filter_cons, filter_nil.
    rewrite (filter_ext_in _ (fun q => is_Some (fs w !! q)) (_ <$> names)).
    + by destruct (decide _).
    + intros q Hq. by rewrite Hsame.
Qed.

(** The paths of the four configured files are pairwise distinct. *)
Lemma configured_paths_NoDup :
  NoDup (os_path_join assets_dir <$> files_to_crop).
Proof. apply (bool_decide_unpack _). by vm_compute. Qed.

Lemma print_grows line : stdout_grows (print line).
Proof. intros w. by exists [line]. Qed.

Lemma bind_grows {A B} (m : Py A) (k : A -> Py B) :
  stdout_grows m -> (forall a, stdout_grows (k a)) -> stdout_grows (bind m k).
Proof.
  intros Hm Hk w. unfold bind. destruct (Hm w) as [more1 H1].
  destruct (m w) as [[a|e] w1]; cbn in H1.
  - destruct (Hk a w1) as [more2 H2]. exists (more1 ++ more2).
    by rewrite H2, H1, app_assoc.
  - by exists more1.
Qed.

Lemma crop_transparent_grows input_path output_path padding :
  stdout_grows (crop_transparent input_path output_path padding).
Proof.
  intros w.
  unfold crop_transparent, bind, Image_open, Image_crop, Image_save, print.
  assert (Hnil : exists more : list string, stdout w = stdout w ++ more)
    by (exists []; by rewrite app_nil_r).
  destruct (fs w !! input_path) as [f|]; [| exact Hnil].
  destruct (img_open f) as [img|]; [| exact Hnil].
  destruct (img_getbbox img) as [bbox|]; [| by eexists].
  destruct (img_size img) as [orig_w orig_h].
  destruct (img_crop img _) as [cropped|]; [| exact Hnil].
  destruct (img_save cropped _) as [f'|]; [| exact Hnil].
  destruct (img_size cropped) as [new_w new_h]. by eexists.
Qed.

Lemma crop_file_grows filename : stdout_grows (crop_file filename).
Proof.
  intros w. unfold crop_file, bind, os_path_exists. case_bool_decide.
  - apply crop_transparent_grows.
  - apply print_grows.
Qed.

Lemma for_each_crop_file_grows names :
  stdout_grows (for_each names crop_file).
Proof.
  induction names as [|n names IH].
  - intros w. exists []. cbn. by rewrite app_nil_r.
  - cbn [for_each]. apply bind_grows; [apply crop_file_grows | done].
Qed.

(** C4: when the loop of [main] reaches a configured file whose path does
    not exist, that iteration returns normally; it has printed the skip
    message for the file, one more line on the output, and has touched no
    file and called no collaborator; the run goes on with the remaining
    files and the closing lines, so the missing file does not abort it,
    and the skip message stays in what [main] has printed at its end. *)
Theorem missing_file_is_skipped pre filename rest (w w1 : World) :
  files_to_crop = pre ++ filename :: rest ->
  (print "Cropping transparent areas from PNG assets..." ;;;
   print "" ;;;
   for_each pre crop_file) w = (Returned tt, w1) ->
  fs w1 !! os_path_join assets_dir filename = None ->
  exists w2,
    crop_file filename w1 = (Returned tt, w2) /\
    stdout w2 =
      stdout w1 ++ ["  " +:+ filename +:+ ": File not found, skipping"] /\
    fs w2 = fs w1 /\
    calls w2 = calls w1 /\
    main w =
      (for_each rest crop_file ;;;
       print "" ;;;
       print "Done! Assets have been cropped.") w2 /\
    exists more,
      stdout (main w).2 =
        stdout w1 ++ ["  " +:+ filename +:+ ": File not found, skipping"]
        ++ more.
Proof.
  intros Hfiles Hpre Hmissing.
  set (w2 := emit ("  " +:+ filename +:+ ": File not found, skipping") w1).
  assert (Hstep : crop_file filename w1 = (Returned tt, w2)).
  { unfold crop_file, bind, os_path_exists. rewrite Hmissing.
    rewrite bool_decide_false by (by intros [? ?]). reflexivity. }
  assert (Hmain : main w =
            (for_each rest crop_file ;;;
             print "" ;;;
             print "Done! Assets have been cropped.") w2).
  { unfold main. rewrite Hfiles.
    apply bind_returned in Hpre as ([] & wa & Ha & Hpre).
    apply bind_returned in Hpre as ([] & wb & Hb & Hpre).
    rewrite (bind_run _ _ _ _ _ Ha), (bind_run _ _ _ _ _ Hb).
    apply bind_same. rewrite for_each_app.
    rewrite (bind_run _ _ _ _ _ Hpre). cbn [for_each].
    by rewrite (bind_run _ _ _ _ _ Hstep). }
  exists w2. repeat (split; [done |]).
  rewrite Hmain.
  destruct (bind_grows (for_each rest crop_file)
              (fun _ => print "" ;;; print "Done! Assets have been cropped.")
              (for_each_crop_file_grows rest)
              (fun _ => bind_grows _ _ (print_grows _)
                          (fun _ => print_grows _)) w2)
    as [more Hmore].
  exists more. rewrite Hmore. subst w2. cbn. by rewrite <- app_assoc.
Qed.

(** C10: [main] goes through checked.png, uncheck.png, tab_normal.png and
    tab_active.png of the assets directory, in that order; for a file that
    exists the iteration is the call of [crop_transparent] on its path
    with padding 2 and no output path, which is the call with the input
    path as output path; and a run that returns has opened the existing
    ones among the four in that order, has cropped each of the four in
    place with padding 2 and has left every other file as it was. *)
Theorem main_crops_four_files_in_place (w w' : World) :
  main w = (Returned tt, w') ->
  let path := fun filename => assets_dir +:+ "/" +:+ filename in
  files_to_crop =
    ["checked.png"; "uncheck.png"; "tab_normal.png"; "tab_active.png"] /\
  os_path_join assets_dir <$> files_to_crop = path <$> files_to_crop /\
  (forall filename (w0 : World),
     is_Some (fs w0 !! path filename) -> filename ∈ files_to_crop ->
     crop_file filename w0 = crop_transparent (path filename) None 2 w0 /\
     crop_transparent (path filename) None 2 w0 =
     crop_transparent (path filename) (Some (path filename)) 2 w0) /\
  opened (calls w') =
    opened (calls w) ++
    filter (fun q => is_Some (fs w !! q)) (path <$> files_to_crop) /\
  (forall filename, filename ∈ files_to_crop ->
     cropped_in_place 2 (path filename)
       (fs w !! path filename) (fs w' !! path filename)) /\
  (forall q, q ∉ path <$> files_to_crop -> fs w' !! q = fs w !! q).
Proof.
  intros Hrun path.
  assert (Hpaths : forall filename, filename ∈ files_to_crop ->
                     os_path_join assets_dir filename = path filename).
  { intros filename Hin. unfold files_to_crop in Hin.
    repeat (apply elem_of_cons in Hin as [-> | Hin]; [reflexivity |]).
    by apply elem_of_nil in Hin. }
  assert (Hmap : os_path_join assets_dir <$> files_to_crop =
                 path <$> files_to_crop) by reflexivity.
  split; [reflexivity |]. split; [exact Hmap |]. split.
  { intros filename w0 Hsome Hin. split; [| reflexivity].
    unfold crop_file, bind, os_path_exists. rewrite (Hpaths _ Hin).
    by rewrite bool_decide_true. }
  unfold main in Hrun.
  apply bind_returned in Hrun as ([] & wa & [= <-] & Hrun).
  apply bind_returned in Hrun as ([] & wb & [= <-] & Hrun).
  apply bind_returned in Hrun as ([] & wc & Hloop & Hrun).
  apply bind_returned in Hrun as ([] & wd & [= <-] & [= <-]).
  apply for_each_crop_file_returned in Hloop as (Hcrop & Hframe & Hopen);
    [| apply configured_paths_NoDup].
  rewrite Hmap in Hframe, Hopen. cbn in Hcrop, Hframe, Hopen |- *.
  split; [exact Hopen |]. split; [| exact Hframe].
  intros filename Hin. specialize (Hcrop filename Hin).
  by rewrite (Hpaths _ Hin) in Hcrop.
Qed.
End ProgramProperties.

(** * The theorems at work on the reference library *)

Lemma crop_transparent_fully_transparent_witness :
  (fs Grid.blank_only !! "blank.png" = Some Grid.blank /\
   img_open Grid.blank = Some Grid.blank /\
   img_getbbox Grid.blank = None) /\
  exists w',
    crop_transparent "blank.png" None 2 Grid.blank_only = (Returned tt, w') /\
    fs w' = fs Grid.blank_only /\
    calls w' = calls Grid.blank_only ++ [COpen "blank.png"] /\
    stdout w' = stdout Grid.blank_only ++
      ["  " +:+ "blank.png" +:+ ": Image is fully transparent, skipping"].
Proof.
  split; [repeat split; reflexivity |].
  apply (crop_transparent_fully_transparent
           "blank.png" None 2 Grid.blank_only Grid.blank Grid.blank);
    reflexivity.
Defined.

Lemma missing_file_is_skipped_witness :
  let w := Grid.uncheck_only in
  let w1 := emit "" (emit "Cropping transparent areas from PNG assets..." w) in
  (files_to_crop =
     [] ++ "checked.png" :: ["uncheck.png"; "tab_normal.png"; "tab_active.png"] /\
   bind (print "Cropping transparent areas from PNG assets...")
     (fun _ => bind (print "") (fun _ => for_each [] crop_file)) w
   = (Returned tt, w1) /\
   fs w1 !! os_path_join assets_dir "checked.png" = None) /\
  exists w2,
    crop_file "checked.png" w1 = (Returned tt, w2) /\
    stdout w2 =
      stdout w1 ++ ["  " +:+ "checked.png" +:+ ": File not found, skipping"] /\
    fs w2 = fs w1 /\
    calls w2 = calls w1 /\
    main w =
      bind (for_each ["uncheck.png"; "tab_normal.png"; "tab_active.png"]
              crop_file)
        (fun _ => bind (print "")
           (fun _ => print "Done! Assets have been cropped.")) w2 /\
    exists more,
      stdout (main w).2 =
        stdout w1 ++ ["  " +:+ "checked.png" +:+ ": File not found, skipping"]
        ++ more.
Proof.
  intros w w1.
  assert (Hfiles : files_to_crop =
            [] ++ "checked.png" ::
            ["uncheck.png"; "tab_normal.png"; "tab_active.png"])
    by reflexivity.
  assert (Hpre :
    bind (print "Cropping transparent areas from PNG assets...")
      (fun _ => bind (print "") (fun _ => for_each [] crop_file)) w
    = (Returned tt, w1)) by reflexivity.
  assert (Hmissing : fs w1 !! os_path_join assets_dir "checked.png" = None)
    by (vm_compute; reflexivity).
  split; [auto |].
  exact (missing_file_is_skipped [] "checked.png" _ w w1 Hfiles Hpre Hmissing).
Defined.

Lemma main_crops_four_files_in_place_witness :
  let w := Grid.two_assets in
  let w' := (main w).2 in
  let path := fun filename => assets_dir +:+ "/" +:+ filename in
  main w = (Returned tt, w') /\
  files_to_crop =
    ["checked.png"; "uncheck.png"; "tab_normal.png"; "tab_active.png"] /\
  os_path_join assets_dir <$> files_to_crop = path <$> files_to_crop /\
  (forall filename (w0 : World),
     is_Some (fs w0 !! path filename) -> filename ∈ files_to_crop ->
     crop_file filename w0 = crop_transparent (path filename) None 2 w0 /\
     crop_transparent (path filename) None 2 w0 =
     crop_transparent (path filename) (Some (path filename)) 2 w0) /\
  opened (calls w') =
    opened (calls w) ++
    filter (fun q => is_Some (fs w !! q)) (path <$> files_to_crop) /\
  (forall filename, filename ∈ files_to_crop ->
     cropped_in_place 2 (path filename)
       (fs w !! path filename) (fs w' !! path filename)) /\
  (forall q, q ∉ path <$> files_to_crop -> fs w' !! q = fs w !! q).
Proof.
  intros w w' path.
  assert (Hout : (main w).1 = Returned tt) by (vm_compute; reflexivity).
  assert (Hrun : main w = (Returned tt, w')).
  { rewrite <- Hout. apply surjective_pairing. }
  split; [exact Hrun |].
  exact (main_crops_four_files_in_place w w' Hrun).
Defined.

(** The run on that disk: checked.png shrinks from 10 x 8 to 6 x 6 (its
    2 x 2 content with 2 pixels around), tab_normal.png is skipped as
    blank, the two other files as missing. *)
Example main_on_two_assets :
  let w' := (main Grid.two_assets).2 in
  stdout w' =
    ["Cropping transparent areas from PNG assets...";
     "";
     "  checked.png: 10x8 -> 6x6";
     "  uncheck.png: File not found, skipping";
     "  " +:+ assets_dir +:+ "/tab_normal.png"
       +:+ ": Image is fully transparent, skipping";
     "  tab_active.png: File not found, skipping";
     "";
     "Done! Assets have been cropped."] /\
  calls w' =
    [COpen (assets_dir +:+ "/checked.png");
     CCrop (2, 1, 8, 7);
     CSave (assets_dir +:+ "/checked.png");
     COpen (assets_dir +:+ "/tab_normal.png")] /\
  (img_size <$> fs w' !! (assets_dir +:+ "/checked.png")) = Some (6, 6).
Proof. repeat split; vm_compute; reflexivity. Qed.

(** * Further properties of the rectangle computation *)

(** X1: the rectangle is the whole image exactly when no side of the
    bounding box is further than the padding from the edge of the image. *)
Theorem padded_box_whole_image_iff W H bx0 by0 bx1 by1 P :
  padded_box W H (bx0, by0, bx1, by1) P = (0, 0, W, H) <->
  bx0 <= P /\ by0 <= P /\ W <= bx1 + P /\ H <= by1 + P.
Proof.
  rewrite padded_box_eq. split.
  - intros [= Hl Ht Hr Hb]. lia.
  - intros. box_arith.
Qed.

(** X2: no side is clamped, the rectangle being the bounding box moved out
    by the padding on every side, exactly when every side is at least the
    padding away from the edge of the image. *)
Theorem padded_box_unclamped_iff W H bx0 by0 bx1 by1 P :
  padded_box W H (bx0, by0, bx1, by1) P =
    (bx0 - P, by0 - P, bx1 + P, by1 + P) <->
  P <= bx0 /\ P <= by0 /\ bx1 + P <= W /\ by1 + P <= H.
Proof.
  rewrite padded_box_eq. split.
  - intros [= Hl Ht Hr Hb]. lia.
  - intros. box_arith.
Qed.

(** X3: for a bounding box within the image and a padding P >= 0, the
    margin actually added on each side is the smaller of P and the room
    left on that side. *)
Theorem padded_box_effective_padding W H bx0 by0 bx1 by1 P :
  0 <= bx0 -> bx1 <= W -> 0 <= by0 -> by1 <= H -> 0 <= P ->
  let '(l, t, r, b) := padded_box W H (bx0, by0, bx1, by1) P in
  bx0 - l = Z.min P bx0 /\ by0 - t = Z.min P by0 /\
  r - bx1 = Z.min P (W - bx1) /\ b - by1 = Z.min P (H - by1).
Proof. intros. box_arith. Qed.

Lemma padded_box_effective_padding_witness :
  (0 <= 1 /\ 18 <= 20 /\ 0 <= 4 /\ 9 <= 10 /\ 0 <= 3) /\
  let '(l, t, r, b) := padded_box 20 10 (1, 4, 18, 9) 3 in
  1 - l = Z.min 3 1 /\ 4 - t = Z.min 3 4 /\
  r - 18 = Z.min 3 (20 - 18) /\ b - 9 = Z.min 3 (10 - 9).
Proof.
  split; [lia | apply (padded_box_effective_padding 20 10 1 4 18 9 3); lia].
Defined.

Lemma padded_box_rerun_witness :
  (0 <= 1 <= 18 /\ 18 <= 20 /\ 0 <= 4 <= 9 /\ 9 <= 10 /\ 0 <= 3) /\
  let '(l, t, r, b) := padded_box 20 10 (1, 4, 18, 9) 3 in
  padded_box (r - l) (b - t) (1 - l, 4 - t, 18 - l, 9 - t) 3 =
  (0, 0, r - l, b - t).
Proof.
  split; [lia | apply (padded_box_rerun 20 10 1 4 18 9 3); lia].
Defined.

(** * Properties of the paths *)

Lemma append_cons x (a b : string) : String x a +:+ b = String x (a +:+ b).
Proof. reflexivity. Qed.

Lemma append_assoc (a b c : string) : (a +:+ b) +:+ c = a +:+ (b +:+ c).
Proof.
  induction a as [|x a IH]; [reflexivity |].
  by rewrite !append_cons, IH.
Qed.

Lemma append_nil_r (a : string) : a +:+ "" = a.
Proof.
  induction a as [|x a IH]; [reflexivity |]. by rewrite append_cons, IH.
Qed.

Lemma after_last_sep_app acc a b :
  after_last_sep acc (a +:+ b) = after_last_sep (after_last_sep acc a) b.
Proof.
  revert acc. induction a as [|c a IH]; intros acc; [reflexivity |].
  rewrite append_cons. cbn [after_last_sep].
  destruct (is_sep c); apply IH.
Qed.

Lemma after_last_sep_no_sep acc b :
  has_sep b = false -> after_last_sep acc b = acc +:+ b.
Proof.
  revert acc. induction b as [|c b IH]; intros acc Hb.
  - cbn. by rewrite append_nil_r.
  - cbn [has_sep] in Hb. apply orb_false_iff in Hb as [Hc Hb].
    cbn [after_last_sep]. rewrite Hc, IH by done.
    by rewrite append_assoc.
Qed.

Lemma after_last_sep_endswith acc a :
  endswith_sep a = true -> after_last_sep acc a = "".
Proof.
  revert acc. induction a as [|c a IH]; intros acc Ha; [done |].
  destruct a as [|c' a].
  - cbn in *. by rewrite Ha.
  - cbn [after_last_sep]. change (endswith_sep (String c' a) = true) in Ha.
    destruct (is_sep c); by apply IH.
Qed.

(** Joining a directory and a name without separator, then taking the
    base name, gives the name back. *)
Lemma os_path_basename_join a b :
  has_sep b = false -> os_path_basename (os_path_join a b) = b.
Proof.
  intros Hb. unfold os_path_basename, os_path_join.
  assert (Hstart : startswith_sep b = false).
  { destruct b as [|c b]; [done |]. cbn in *.
    by apply orb_false_iff in Hb as [? ?]. }
  rewrite Hstart.
  destruct ((String.length a =? 0)%nat || endswith_sep a) eqn:Ha.
  - rewrite after_last_sep_app.
    apply orb_true_iff in Ha as [Ha | Ha].
    + destruct a; [| done]. cbn [after_last_sep].
      by rewrite after_last_sep_no_sep.
    + rewrite (after_last_sep_endswith "" a) by done.
      by rewrite after_last_sep_no_sep.
  - rewrite !after_last_sep_app. cbn [after_last_sep is_sep Ascii.eqb].
    change (is_sep "/") with true. cbn [after_last_sep].
    by rewrite after_last_sep_no_sep.
Qed.

(** * Further properties of the script *)

Section ProgramBehaviour.
Context `{ImageLib}.
Local Open Scope py_scope.

Lemma bind_raised {A B} (m : Py A) (k : A -> Py B) w e w1 :
  m w = (Raised e, w1) -> bind m k w = (Raised e, w1).
Proof. unfold bind. by intros ->. Qed.

(** The world a successful call of [crop_transparent] leaves. *)
Lemma crop_transparent_success
    input_path output_path padding (w : World)
    f img bbox orig_w orig_h cropped f' new_w new_h :
  let out := default input_path output_path in
  let rect := padded_box orig_w orig_h bbox padding in
  fs w !! input_path = Some f ->
  img_open f = Some img ->
  img_getbbox img = Some bbox ->
  img_size img = (orig_w, orig_h) ->
  img_crop img rect = Some cropped ->
  img_save cropped out = Some f' ->
  img_size cropped = (new_w, new_h) ->
  crop_transparent input_path output_path padding w =
  (Returned tt,
   emit ("  " +:+ os_path_basename input_path +:+ ": "
         +:+ py_str orig_w +:+ "x" +:+ py_str orig_h +:+ " -> "
         +:+ py_str new_w +:+ "x" +:+ py_str new_h)
     (write out f'
        (log (CSave out) (log (CCrop rect) (log (COpen input_path) w))))).
Proof.
  intros out rect Hf Himg Hbox Hsize Hcrop Hsave Hnew.
  unfold crop_transparent, bind, Image_open, Image_crop, Image_save.
  rewrite Hf, Himg, Hbox, Hsize. fold rect. rewrite Hcrop.
  replace (match output_path with Some p => p | None => input_path end)
    with out by (by destruct output_path).
  by rewrite Hsave, Hnew.
Qed.

(** X5: when the iteration of [main] for a file name without separator
    finds the file, opens it, finds a bounding box and crops and saves with
    success, it returns and the one line it prints names the file by the
    configured name, not by its path, followed by the old and the new
    dimensions. *)
Theorem crop_file_prints_file_name
    filename (w : World) f img bbox orig_w orig_h cropped f' new_w new_h :
  let path := os_path_join assets_dir filename in
  has_sep filename = false ->
  fs w !! path = Some f ->
  img_open f = Some img ->
  img_getbbox img = Some bbox ->
  img_size img = (orig_w, orig_h) ->
  img_crop img (padded_box orig_w orig_h bbox 2) = Some cropped ->
  img_save cropped path = Some f' ->
  img_size cropped = (new_w, new_h) ->
  exists w',
    crop_file filename w = (Returned tt, w') /\
    stdout w' = stdout w ++
      ["  " +:+ filename +:+ ": "
       +:+ py_str orig_w +:+ "x" +:+ py_str orig_h +:+ " -> "
       +:+ py_str new_w +:+ "x" +:+ py_str new_h].
Proof.
  intros path Hname Hf Himg Hbox Hsize Hcrop Hsave Hnew. eexists. split.
  - unfold crop_file, bind, os_path_exists. fold path.
    rewrite bool_decide_true by (rewrite Hf; eauto).
    exact (crop_transparent_success path None 2 w f img bbox orig_w orig_h
             cropped f' new_w new_h Hf Himg Hbox Hsize Hcrop Hsave Hnew).
  - subst path. by rewrite os_path_basename_join.
Qed.

(** What a call of [crop_transparent] does to the files, whatever its
    outcome: nothing, or one write at the output path, and this only when
    the input exists. *)
Lemma crop_transparent_fs input_path output_path padding (w : World) :
  let out := default input_path output_path in
  let w' := (crop_transparent input_path output_path padding w).2 in
  fs w' = fs w \/
  (is_Some (fs w !! input_path) /\ exists f', fs w' = <[out := f']> (fs w)).
Proof.
  intros out.
  unfold crop_transparent, bind, Image_open, Image_crop, Image_save, print.
  replace (match output_path with Some p => p | None => input_path end)
    with out by (by destruct output_path).
  destruct (fs w !! input_path) as [f|]; [| by left].
  destruct (img_open f) as [img|]; [| by left].
  destruct (img_getbbox img) as [bbox|]; [| by left].
  destruct (img_size img) as [orig_w orig_h].
  destruct (img_crop img _) as [cropped|]; [| by left].
  destruct (img_save cropped out) as [f'|]; [| by left].
  destruct (img_size cropped) as [new_w new_h].
  right. split; [eauto |]. by exists f'.
Qed.

(** X7: whatever its outcome, [crop_transparent] leaves every file other
    than the one at its output path as it was; with an output path of its
    own the input file is not modified. *)
Theorem crop_transparent_only_writes_output
    input_path output_path padding (w : World) q :
  q <> default input_path output_path ->
  fs (crop_transparent input_path output_path padding w).2 !! q = fs w !! q.
Proof.
  intros Hq.
  destruct (crop_transparent_fs input_path output_path padding w)
    as [-> | (_ & f' & ->)]; [done |].
  by rewrite lookup_insert_ne.
Qed.

(** X8: called on a path that does not exist, [crop_transparent] raises
    the error of the opening; no file is written and nothing is printed. *)
Theorem crop_transparent_missing_input
    input_path output_path padding (w : World) :
  fs w !! input_path = None ->
  exists w',
    crop_transparent input_path output_path padding w =
      (Raised FileNotFoundError, w') /\
    fs w' = fs w /\ stdout w' = stdout w /\
    calls w' = calls w ++ [COpen input_path].
Proof.
  intros Hf. eexists. split.
  - unfold crop_transparent, bind, Image_open. rewrite Hf. reflexivity.
  - done.
Qed.

(** X9: when an iteration of the loop of [main] raises, [main] raises the
    same exception in the world of that moment: the remaining files are
    not processed and the closing lines are not printed. *)
Theorem main_aborts_on_failure pre filename rest (w w1 w2 : World) e :
  files_to_crop = pre ++ filename :: rest ->
  (print "Cropping transparent areas from PNG assets..." ;;;
   print "" ;;;
   for_each pre crop_file) w = (Returned tt, w1) ->
  crop_file filename w1 = (Raised e, w2) ->
  main w = (Raised e, w2).
Proof.
  intros Hfiles Hpre Hstep. unfold main. rewrite Hfiles.
  apply bind_returned in Hpre as ([] & wa & Ha & Hpre).
  apply bind_returned in Hpre as ([] & wb & Hb & Hpre).
  rewrite (bind_run _ _ _ _ _ Ha), (bind_run _ _ _ _ _ Hb).
  apply bind_raised. rewrite for_each_app.
  rewrite (bind_run _ _ _ _ _ Hpre). cbn [for_each].
  by apply bind_raised.
Qed.

Lemma crop_transparent_outcome input_path output_path padding (w : World) :
  is_Some (fs w !! input_path) ->
  returned_or_library_error
    (crop_transparent input_path output_path padding w).1.
Proof.
  intros [f Hf]. unfold returned_or_library_error.
  unfold crop_transparent, bind, Image_open, Image_crop, Image_save, print.
  rewrite Hf.
  destruct (img_open f) as [img|]; [| auto].
  destruct (img_getbbox img) as [bbox|]; [| auto].
  destruct (img_size img) as [orig_w orig_h].
  destruct (img_crop img _) as [cropped|]; [| auto].
  destruct (img_save cropped _) as [f'|]; [| cbn; auto].
  destruct (img_size cropped) as [new_w new_h]. auto.
Qed.

Lemma crop_file_outcome filename (w : World) :
  returned_or_library_error (crop_file filename w).1.
Proof.
  unfold crop_file, bind, os_path_exists. case_bool_decide as Hp.
  - by apply crop_transparent_outcome.
  - by left.
Qed.

Lemma for_each_crop_file_outcome names (w : World) :
  returned_or_library_error (for_each names crop_file w).1.
Proof.
  revert w. induction names as [|n names IH]; intros w; [by left |].
  cbn [for_each]. unfold bind.
  pose proof (crop_file_outcome n w) as Hn.
  destruct (crop_file n w) as [[[]|e] w1]; [apply IH | exact Hn].
Qed.

(** X10: a run of [main] returns or raises an error of the decoding, the
    cropping or the saving; it never raises the error of a missing file,
    every path being tested before it is opened. *)
Theorem main_outcome (w : World) : returned_or_library_error (main w).1.
Proof.
  unfold main, bind, print.
  pose proof (for_each_crop_file_outcome files_to_crop
                (emit "" (emit "Cropping transparent areas from PNG assets..." w)))
    as Hloop.
  destruct (for_each files_to_crop crop_file _) as [[[]|e] w1];
    [by left | exact Hloop].
Qed.

Lemma same_paths_refl (w : World) : same_paths w w.
Proof. by intros q. Qed.

Lemma same_paths_trans (w1 w2 w3 : World) :
  same_paths w1 w2 -> same_paths w2 w3 -> same_paths w1 w3.
Proof. intros H12 H23 q. rewrite (H23 q). apply H12. Qed.

Lemma crop_file_same_paths filename (w : World) :
  same_paths w (crop_file filename w).2.
Proof.
  unfold crop_file, bind, os_path_exists. case_bool_decide as Hp;
    [| intros q; reflexivity].
  set (p := os_path_join assets_dir filename) in *.
  destruct (crop_transparent_fs p None 2 w) as [Hfs | (_ & f' & Hfs)];
    intros q; rewrite Hfs; [done |].
  cbn [default]. rewrite lookup_insert_is_Some'.
  split; [intros [<- | ?]; done | auto].
Qed.

Lemma for_each_crop_file_same_paths names (w : World) :
  same_paths w (for_each names crop_file w).2.
Proof.
  revert w. induction names as [|n names IH]; intros w;
    [apply same_paths_refl |].
  cbn [for_each]. unfold bind.
  pose proof (crop_file_same_paths n w) as Hn.
  destruct (crop_file n w) as [[[]|e] w1]; [| exact Hn].
  exact (same_paths_trans _ _ _ Hn (IH w1)).
Qed.

(** X11: whatever its outcome, a run of [main] creates no file and removes
    none: a path holds a file afterwards exactly when it did before. *)
Theorem main_keeps_the_paths (w : World) q :
  is_Some (fs (main w).2 !! q) <-> is_Some (fs w !! q).
Proof.
  unfold main, bind, print.
  pose proof (for_each_crop_file_same_paths files_to_crop
                (emit "" (emit "Cropping transparent areas from PNG assets..." w)) q)
    as Hloop.
  destruct (for_each files_to_crop crop_file _) as [[[]|e] w1]; exact Hloop.
Qed.

Lemma crop_transparent_returned_stdout
    input_path output_path padding (w w' : World) :
  crop_transparent input_path output_path padding w = (Returned tt, w') ->
  exists line, stdout w' = stdout w ++ [line].
Proof.
  unfold crop_transparent, bind, Image_open, Image_crop, Image_save, print.
  destruct (fs w !! input_path) as [f|]; [| discriminate].
  destruct (img_open f) as [img|]; [| discriminate].
  destruct (img_getbbox img) as [bbox|].
  - destruct (img_size img) as [orig_w orig_h].
    destruct (img_crop img _) as [cropped|]; [| discriminate].
    destruct (img_save cropped _) as [f'|]; [| discriminate].
    destruct (img_size cropped) as [new_w new_h].
    intros [= <-]. by eexists.
  - intros [= <-]. by eexists.
Qed.

Lemma crop_file_returned_stdout filename (w w' : World) :
  crop_file filename w = (Returned tt, w') ->
  exists line, stdout w' = stdout w ++ [line].
Proof.
  unfold crop_file, bind, os_path_exists. case_bool_decide as Hp.
  - apply crop_transparent_returned_stdout.
  - intros [= <-]. by eexists.
Qed.

(** X12: a run of [main] that returns has printed eight lines: the
    heading, an empty line, one line for each of the four files, an empty
    line and the closing line. *)
Theorem main_prints_one_line_per_file (w w' : World) :
  main w = (Returned tt, w') ->
  exists l1 l2 l3 l4,
    stdout w' =
      stdout w ++
      ["Cropping transparent areas from PNG assets..."; "";
       l1; l2; l3; l4;
       ""; "Done! Assets have been cropped."].
Proof.
  intros Hrun. unfold main, files_to_crop in Hrun. cbn [for_each] in Hrun.
  apply bind_returned in Hrun as ([] & wa & [= <-] & Hrun).
  apply bind_returned in Hrun as ([] & wb & [= <-] & Hrun).
  apply bind_returned in Hrun as ([] & wc & Hloop & Hrun).
  apply bind_returned in Hrun as ([] & wd & [= <-] & [= <-]).
  apply bind_returned in Hloop as ([] & w1 & H1 & Hloop).
  apply bind_returned in Hloop as ([] & w2 & H2 & Hloop).
  apply bind_returned in Hloop as ([] & w3 & H3 & Hloop).
  apply bind_returned in Hloop as ([] & w4 & H4 & [= <-]).
  apply crop_file_returned_stdout in H1 as [l1 H1], H2 as [l2 H2],
    H3 as [l3 H3], H4 as [l4 H4].
  exists l1, l2, l3, l4. cbn. rewrite H4, H3, H2, H1. cbn.
  by rewrite <- !app_assoc.
Qed.

Lemma crop_file_missing filename (w : World) :
  fs w !! os_path_join assets_dir filename = None ->
  crop_file filename w =
  (Returned tt, emit ("  " +:+ filename +:+ ": File not found, skipping") w).
Proof.
  intros Hmissing. unfold crop_file, bind, os_path_exists. rewrite Hmissing.
  by rewrite bool_decide_false by (by intros [? ?]).
Qed.

(** X13: when none of the four configured files exists, [main] returns,
    having called no collaborator and changed no file, and has printed the
    heading, a skip line for each file in order and the closing line. *)
Theorem main_all_missing (w : World) :
  (forall filename, filename ∈ files_to_crop ->
     fs w !! os_path_join assets_dir filename = None) ->
  main w =
  (Returned tt,
   mkWorld _ (fs w)
     (stdout w ++
      ["Cropping transparent areas from PNG assets..."; "";
       "  checked.png: File not found, skipping";
       "  uncheck.png: File not found, skipping";
       "  tab_normal.png: File not found, skipping";
       "  tab_active.png: File not found, skipping";
       ""; "Done! Assets have been cropped."])
     (calls w)).
Proof.
  intros Hmissing.
  assert (Hstep : forall filename (w0 : World) (k : unit -> Py unit),
            filename ∈ files_to_crop -> fs w0 = fs w ->
            bind (crop_file filename) k w0 =
            k tt (emit ("  " +:+ filename +:+ ": File not found, skipping") w0)).
  { intros filename w0 k Hin Hfs. apply bind_run, crop_file_missing.
    rewrite Hfs. by apply Hmissing. }
  unfold main. unfold bind at 1 2. cbn [print].
  unfold files_to_crop at 1. cbn [for_each].
  unfold bind at 1.
  rewrite !Hstep by (done || set_solver).
  unfold ret, bind, print, emit. cbn [fs stdout calls].
  rewrite <- !app_assoc. reflexivity.
Qed.

(** X14: cropping a file in place twice with the same padding >= 0.
    Suppose the first call succeeds on a bounding box within the image,
    and the library (a) reads back from the saved file the cropped image,
    (b) gives as its size the size of the rectangle, (c) gives as its
    bounding box the first one moved by the offset of the crop, and
    (d) returns it unchanged when cropping it to its full extent.  Then
    both calls return, the second asks for the crop to the full extent
    (0, 0, r - l, b - t) and nothing else, and the files after it are
    those the first call left. *)
Theorem crop_transparent_twice
    input_path padding (w : World) f img bx0 by0 bx1 by1 W H0 cropped f' :
  let rect := padded_box W H0 (bx0, by0, bx1, by1) padding in
  let l := box_left rect in
  let t := box_top rect in
  let r := box_right rect in
  let b := box_bottom rect in
  0 <= bx0 <= bx1 -> bx1 <= W -> 0 <= by0 <= by1 -> by1 <= H0 ->
  0 <= padding ->
  fs w !! input_path = Some f ->
  img_open f = Some img ->
  img_getbbox img = Some (bx0, by0, bx1, by1) ->
  img_size img = (W, H0) ->
  img_crop img rect = Some cropped ->
  img_save cropped input_path = Some f' ->
  img_open f' = Some cropped ->
  img_size cropped = (r - l, b - t) ->
  img_getbbox cropped = Some (bx0 - l, by0 - t, bx1 - l, by1 - t) ->
  img_crop cropped (0, 0, r - l, b - t) = Some cropped ->
  exists w1 w2,
    crop_transparent input_path None padding w = (Returned tt, w1) /\
    crop_transparent input_path None padding w1 = (Returned tt, w2) /\
    fs w1 !! input_path = Some f' /\
    calls w2 =
      calls w1 ++
      [COpen input_path; CCrop (0, 0, r - l, b - t); CSave input_path] /\
    fs w2 = fs w1.
Proof.
  intros rect l t r b Hx HW Hy HH HP Hf Himg Hbox Hsize Hcrop Hsave
    Himg' Hsize' Hbox' Hcrop'.
  pose proof (crop_transparent_success input_path None padding w
                f img _ _ _ cropped f' _ _ Hf Himg Hbox Hsize Hcrop Hsave
                Hsize') as Hrun1.
  assert (Hrect' : padded_box (r - l) (b - t)
                     (bx0 - l, by0 - t, bx1 - l, by1 - t) padding =
                   (0, 0, r - l, b - t)).
  { subst l t r b rect. rewrite (padded_box_eq W).
    cbn [box_left box_top box_right box_bottom fst snd].
    apply padded_box_covers; lia. }
  eexists _, _. split; [exact Hrun1 |].
  assert (Hf1 : forall w0 : World,
            fs (write input_path f' w0) !! input_path = Some f').
  { intros w0. apply lookup_insert_eq. }
  split; [| split; [| split]].
  - eapply (crop_transparent_success input_path None padding _
              f' cropped _ _ _ cropped f').
    + apply Hf1.
    + exact Himg'.
    + exact Hbox'.
    + exact Hsize'.
    + rewrite Hrect'. exact Hcrop'.
    + exact Hsave.
    + exact Hsize'.
  - apply Hf1.
  - unfold emit, write, log. cbn [calls fs stdout].
    rewrite Hrect'. by rewrite <- !app_assoc.
  - cbn. apply insert_insert_eq.
Qed.
End ProgramBehaviour.

(** * The further theorems at work on the reference library *)

Lemma crop_transparent_crops_witness :
  let w := Grid.sample_only in
  let rect := padded_box 10 8 (4, 3, 6, 5) 2 in
  (fs w !! "sample.png" = Some Grid.sample /\
   img_open Grid.sample = Some Grid.sample /\
   img_getbbox Grid.sample = Some (4, 3, 6, 5) /\
   img_size Grid.sample = (10, 8) /\
   img_crop Grid.sample rect = Some Grid.cropped_sample /\
   img_save Grid.cropped_sample "out.png" = Some Grid.cropped_sample /\
   img_size Grid.cropped_sample = (6, 6)) /\
  exists w',
    crop_transparent "sample.png" (Some "out.png") 2 w = (Returned tt, w') /\
    fs w' = <["out.png" := Grid.cropped_sample]> (fs w) /\
    calls w' = calls w ++ [COpen "sample.png"; CCrop rect; CSave "out.png"] /\
    stdout w' = stdout w ++
      ["  " +:+ os_path_basename "sample.png" +:+ ": "
       +:+ py_str 10 +:+ "x" +:+ py_str 8 +:+ " -> "
       +:+ py_str 6 +:+ "x" +:+ py_str 6].
Proof.
  intros w rect. split; [repeat split; vm_compute; reflexivity |].
  apply (crop_transparent_crops "sample.png" (Some "out.png") 2 w
           Grid.sample Grid.sample (4, 3, 6, 5) 10 8
           Grid.cropped_sample Grid.cropped_sample 6 6);
    vm_compute; reflexivity.
Defined.

Lemma crop_transparent_only_writes_output_witness :
  "sample.png" <> default "sample.png" (Some "out.png") /\
  fs (crop_transparent "sample.png" (Some "out.png") 2 Grid.sample_only).2
    !! "sample.png"
  = fs Grid.sample_only !! "sample.png".
Proof.
  split; [discriminate |].
  apply (crop_transparent_only_writes_output
           "sample.png" (Some "out.png") 2 Grid.sample_only "sample.png").
  discriminate.
Defined.

Lemma crop_transparent_missing_input_witness :
  fs Grid.blank_only !! "nothing.png" = None /\
  exists w',
    crop_transparent "nothing.png" None 2 Grid.blank_only =
      (Raised FileNotFoundError, w') /\
    fs w' = fs Grid.blank_only /\ stdout w' = stdout Grid.blank_only /\
    calls w' = calls Grid.blank_only ++ [COpen "nothing.png"].
Proof.
  split; [reflexivity |].
  apply (crop_transparent_missing_input "nothing.png" None 2 Grid.blank_only).
  reflexivity.
Defined.

Lemma main_aborts_on_failure_witness :
  let w := Grid.corrupt_checked in
  let w1 := emit "" (emit "Cropping transparent areas from PNG assets..." w) in
  let w2 := log (COpen (os_path_join assets_dir "checked.png")) w1 in
  (files_to_crop =
     [] ++ "checked.png" :: ["uncheck.png"; "tab_normal.png"; "tab_active.png"] /\
   bind (print "Cropping transparent areas from PNG assets...")
     (fun _ => bind (print "") (fun _ => for_each [] crop_file)) w
   = (Returned tt, w1) /\
   crop_file "checked.png" w1 = (Raised UnidentifiedImageError, w2)) /\
  main w = (Raised UnidentifiedImageError, w2).
Proof.
  intros w w1 w2.
  assert (Hfiles : files_to_crop =
            [] ++ "checked.png" ::
            ["uncheck.png"; "tab_normal.png"; "tab_active.png"])
    by reflexivity.
  assert (Hpre :
    bind (print "Cropping transparent areas from PNG assets...")
      (fun _ => bind (print "") (fun _ => for_each [] crop_file)) w
    = (Returned tt, w1)) by reflexivity.
  assert (Hstep :
    crop_file "checked.png" w1 = (Raised UnidentifiedImageError, w2)).
  { unfold crop_file, bind, os_path_exists, crop_transparent, Image_open.
    replace (fs w1 !! os_path_join assets_dir "checked.png")
      with (Some (None : option Grid.grid)) by (vm_compute; reflexivity).
    reflexivity. }
  split; [auto |].
  exact (main_aborts_on_failure [] "checked.png" _ w w1 w2 _ Hfiles Hpre Hstep).
Defined.

Lemma main_prints_one_line_per_file_witness :
  let w := Grid.two_assets in
  let w' := (main w).2 in
  main w = (Returned tt, w') /\
  exists l1 l2 l3 l4,
    stdout w' =
      stdout w ++
      ["Cropping transparent areas from PNG assets..."; "";
       l1; l2; l3; l4;
       ""; "Done! Assets have been cropped."].
Proof.
  intros w w'.
  assert (Hout : (main w).1 = Returned tt) by (vm_compute; reflexivity).
  assert (Hrun : main w = (Returned tt, w')).
  { rewrite <- Hout. apply surjective_pairing. }
  split; [exact Hrun |].
  exact (main_prints_one_line_per_file w w' Hrun).
Defined.

Lemma main_all_missing_witness :
  let w := Grid.blank_only in
  (forall filename, filename ∈ files_to_crop ->
     fs w !! os_path_join assets_dir filename = None) /\
  main w =
  (Returned tt,
   mkWorld _ (fs w)
     (stdout w ++
      ["Cropping transparent areas from PNG assets..."; "";
       "  checked.png: File not found, skipping";
       "  uncheck.png: File not found, skipping";
       "  tab_normal.png: File not found, skipping";
       "  tab_active.png: File not found, skipping";
       ""; "Done! Assets have been cropped."])
     (calls w)).
Proof.
  intros w.
  assert (Hmissing : forall filename, filename ∈ files_to_crop ->
            fs w !! os_path_join assets_dir filename = None).
  { intros filename Hin. unfold files_to_crop in Hin.
    repeat (apply elem_of_cons in Hin as [-> | Hin];
            [vm_compute; reflexivity |]).
    by apply elem_of_nil in Hin. }
  split; [exact Hmissing |].
  exact (main_all_missing w Hmissing).
Defined.

Lemma crop_transparent_twice_witness :
  let w := Grid.sample_only in
  let rect := padded_box 10 8 (4, 3, 6, 5) 2 in
  let l := box_left rect in
  let t := box_top rect in
  let r := box_right rect in
  let b := box_bottom rect in
  ((0 <= 4 <= 6 /\ 6 <= 10 /\ 0 <= 3 <= 5 /\ 5 <= 8 /\ 0 <= 2) /\
   fs w !! "sample.png" = Some Grid.sample /\
   img_open Grid.sample = Some Grid.sample /\
   img_getbbox Grid.sample = Some (4, 3, 6, 5) /\
   img_size Grid.sample = (10, 8) /\
   img_crop Grid.sample rect = Some Grid.cropped_sample /\
   img_save Grid.cropped_sample "sample.png" = Some Grid.cropped_sample /\
   img_open Grid.cropped_sample = Some Grid.cropped_sample /\
   img_size Grid.cropped_sample = (r - l, b - t) /\
   img_getbbox Grid.cropped_sample = Some (4 - l, 3 - t, 6 - l, 5 - t) /\
   img_crop Grid.cropped_sample (0, 0, r - l, b - t)
     = Some Grid.cropped_sample) /\
  exists w1 w2,
    crop_transparent "sample.png" None 2 w = (Returned tt, w1) /\
    crop_transparent "sample.png" None 2 w1 = (Returned tt, w2) /\
    fs w1 !! "sample.png" = Some Grid.cropped_sample /\
    calls w2 =
      calls w1 ++
      [COpen "sample.png"; CCrop (0, 0, r - l, b - t); CSave "sample.png"] /\
    fs w2 = fs w1.
Proof.
  intros w rect l t r b.
  split; [split; [lia | repeat split; vm_compute; reflexivity] |].
  apply (crop_transparent_twice "sample.png" 2 w
           Grid.sample Grid.sample 4 3 6 5 10 8
           Grid.cropped_sample Grid.cropped_sample);
    try lia; vm_compute; reflexivity.
Defined.

Lemma crop_file_prints_file_name_witness :
  let w := Grid.two_assets in
  let path := os_path_join assets_dir "checked.png" in
  (has_sep "checked.png" = false /\
   fs w !! path = Some Grid.sample /\
   img_open Grid.sample = Some Grid.sample /\
   img_getbbox Grid.sample = Some (4, 3, 6, 5) /\
   img_size Grid.sample = (10, 8) /\
   img_crop Grid.sample (padded_box 10 8 (4, 3, 6, 5) 2)
     = Some Grid.cropped_sample /\
   img_save Grid.cropped_sample path = Some Grid.cropped_sample /\
   img_size Grid.cropped_sample = (6, 6)) /\
  exists w',
    crop_file "checked.png" w = (Returned tt, w') /\
    stdout w' = stdout w ++
      ["  " +:+ "checked.png" +:+ ": "
       +:+ py_str 10 +:+ "x" +:+ py_str 8 +:+ " -> "
       +:+ py_str 6 +:+ "x" +:+ py_str 6].
Proof.
  intros w path. split; [repeat split; vm_compute; reflexivity |].
  apply (crop_file_prints_file_name "checked.png" w
           Grid.sample Grid.sample (4, 3, 6, 5) 10 8
           Grid.cropped_sample Grid.cropped_sample 6 6);
    vm_compute; reflexivity.
Defined.
